(** * torch_spex: spherical expansion coefficients

    A shallow embedding of [torch_spex/spherical_expansions.py]:
    [get_cartesian_vectors], [VectorExpansion.forward] and
    [SphericalExpansion.forward], together with the tensor primitives of
    torch and numpy that these three functions call.

    Conventions of the embedding.
    - A tensor is its shape and its elements in row-major order, which is
      the order in which torch enumerates a (logically) contiguous tensor.
    - The scalar type is abstract ([Scalar]): the statements about index
      bookkeeping hold for any scalar type, and the few statements that
      need algebraic laws of the addition name them as hypotheses.
    - The two basis providers ([RadialBasis], [sphericart]) are parameters
      of the calculator; what the code expects from their results is the
      predicate [provider_contract].
    - A Python exception is a value [Err e]. The labelled container
      (equistore) is a plain record: it checks nothing beyond what the code
      of this file checks itself. *)

From stdpp Require Import base numbers list strings gmap sorting.

Open Scope Z_scope.
Open Scope nat_scope.

(** ** Exceptions *)

Inductive error : Set := IndexError | KeyError | RuntimeError | ValueError.

Inductive res (A : Type) : Type :=
| Ok (a : A)
| Err (e : error).
Arguments Ok {A} a.
Arguments Err {A} e.

Definition bind {A B} (m : res A) (f : A → res B) : res B :=
  match m with Ok a => f a | Err e => Err e end.

Notation "'let*' x := m 'in' k" := (bind m (λ x, k))
  (at level 10, x name, m at level 100, k at level 200, only parsing).

(** [[f(x) for x in l]] where [f] may raise *)
Fixpoint mapM {A B} (f : A → res B) (l : list A) : res (list B) :=
  match l with
  | [] => Ok []
  | x :: l' => let* y := f x in let* ys := mapM f l' in Ok (y :: ys)
  end.

Definition guard_res (b : bool) (e : error) : res unit :=
  if b then Ok () else Err e.

Definition is_Ok {A} (r : res A) : Prop := ∃ a, r = Ok a.

(** ** Scalars and tensors *)

Class Scalar (V : Type) := {
  vzero : V;
  vadd : V → V → V;
  vmul : V → V → V;
  vsqrt : V → V
}.

Record tensor (V : Type) := Tensor { shape : list nat; data : list V }.
Arguments Tensor {V} shape data.
Arguments shape {V} t.
Arguments data {V} t.

Definition numel (s : list nat) : nat := foldr Nat.mul 1 s.

(** [t.shape[k]] *)
Definition dim {V} (t : tensor V) (k : nat) : nat := default 0 (shape t !! k).

Definition tabulate {A} (n : nat) (f : nat → A) : list A := f <$> seq 0 n.

(** Reading a flat buffer; positions are always in range where it is used. *)
Definition rd `{Scalar V} (d : list V) (i : nat) : V := default vzero (d !! i).

Definition wf_tensor {V} (t : tensor V) : Prop := length (data t) = numel (shape t).

(** [torch.zeros(shape)] *)
Definition zeros `{Scalar V} (s : list nat) : tensor V :=
  Tensor s (replicate (numel s) vzero).

(** [t.reshape(s)], where an entry [None] of [s] stands for [-1].  With one
    [-1] torch infers the dimension, and refuses when the product of the
    other dimensions is zero (the inferred size would be ambiguous). *)
Definition reshape {V} (t : tensor V) (s : list (option nat)) : res (tensor V) :=
  let known := numel (omap id s) in
  let n := numel (shape t) in
  match length (filter (λ d, d = None) s) with
  | 0 => if decide (n = known) then Ok (Tensor (omap id s) (data t)) else Err RuntimeError
  | 1 => if decide (known = 0) then Err RuntimeError
         else if decide (n `mod` known = 0)
              then Ok (Tensor ((λ d, default (n `div` known) d) <$> s) (data t))
              else Err RuntimeError
  | _ => Err RuntimeError
  end.

(** [t.swapaxes(1, 2)] of a 4-dimensional tensor, read in logical order. *)
Definition swapaxes_1_2 `{Scalar V} (t : tensor V) : res (tensor V) :=
  match shape t with
  | [a; b; c; d] =>
      Ok (Tensor [a; c; b; d]
            (tabulate (a * c * b * d) (λ p,
               let id := p `mod` d in
               let ib := (p `div` d) `mod` b in
               let ic := (p `div` (d * b)) `mod` c in
               let ia := p `div` (d * b * c) in
               rd (data t) (((ia * b + ib) * c + ic) * d + id))))
  | _ => Err IndexError
  end.

(** Broadcasting of one dimension. *)
Definition bdim (a b : nat) : res nat :=
  if decide (a = b) then Ok a
  else if decide (a = 1) then Ok b
  else if decide (b = 1) then Ok a
  else Err RuntimeError.

(** Row [p] of an operand whose leading dimension is [n]: a dimension of
    size one is repeated. *)
Definition brow (n p : nat) : nat := if decide (n = 1) then 0 else p.

(** [self.index_add_(dim=0, index, source)]: for [i = 0, 1, ...] in turn,
    [self[index[i]] += source[i]]. *)
Definition row_stride (s : list nat) : nat := numel (tail s).

Definition add_row `{Scalar V} (stride : nat) (self : list V) (r : nat)
    (src : list V) (i : nat) : list V :=
  tabulate (length self) (λ p,
    if decide (p `div` stride = r)
    then vadd (rd self p) (rd src (i * stride + p `mod` stride))
    else rd self p).

Definition index_ok (n : nat) (k : Z) : bool :=
  bool_decide (0 ≤ k < Z.of_nat n)%Z.

Definition index_add_0 `{Scalar V} (self : tensor V) (index : list Z)
    (source : tensor V) : res (tensor V) :=
  let* _ := guard_res (bool_decide (tail (shape self) = tail (shape source)
                              ∧ shape self ≠ [] ∧ shape source ≠ []
                              ∧ length index = dim source 0)) RuntimeError in
  let* _ := guard_res (forallb (index_ok (dim self 0)) index) IndexError in
  let stride := row_stride (shape self) in
  Ok (Tensor (shape self)
        (foldl (λ acc '(i, k), add_row stride acc (Z.to_nat k) (data source) i)
               (data self) (imap pair index))).

(** [torch.index_select(t, 0, index)] *)
Definition index_select_0 `{Scalar V} (t : tensor V) (index : list nat) : res (tensor V) :=
  let* _ := guard_res (bool_decide (shape t ≠ [])) IndexError in
  let* _ := guard_res (forallb (λ k, bool_decide (k < dim t 0)) index) IndexError in
  let stride := row_stride (shape t) in
  Ok (Tensor (length index :: tail (shape t))
        (tabulate (length index * stride) (λ p,
           rd (data t) (default 0 (index !! (p `div` stride)) * stride + p `mod` stride)))).

(** [torch.split(t, sizes, dim=1)] of a 2-dimensional tensor. *)
Definition split_1 `{Scalar V} (t : tensor V) (sizes : list nat) : res (list (tensor V)) :=
  match shape t with
  | [p; k] =>
      let* _ := guard_res (bool_decide (sum_list sizes = k)) RuntimeError in
      Ok (imap (λ j w,
            let start := sum_list (take j sizes) in
            Tensor [p; w] (tabulate (p * w) (λ q,
              rd (data t) ((q `div` w) * k + start + q `mod` w)))) sizes)
  | _ => Err IndexError
  end.

(** ** Integer arrays *)

(** [a[i]] for a torch integer index: a negative index counts from the end. *)
Definition torch_index {A} (a : list A) (i : Z) : res A :=
  let n := Z.of_nat (length a) in
  if decide (0 ≤ i < n)%Z then
    match a !! Z.to_nat i with Some x => Ok x | None => Err IndexError end
  else if decide (- n ≤ i < 0)%Z then
    match a !! Z.to_nat (n + i) with Some x => Ok x | None => Err IndexError end
  else Err IndexError.

(** Conversion to [np.int32]: two's complement wrap-around. *)
Definition wrap32 (z : Z) : Z := ((z + 2 ^ 31) `mod` 2 ^ 32 - 2 ^ 31)%Z.

(** [torch.unique(a)]: the distinct values in increasing order, with
    [return_counts] and [return_inverse]. *)
Fixpoint insert_sorted (x : Z) (l : list Z) : list Z :=
  match l with
  | [] => [x]
  | y :: l' =>
      if decide (x < y)%Z then x :: l
      else if decide (x = y) then l
      else y :: insert_sorted x l'
  end.

Definition unique (a : list Z) : list Z := foldr insert_sorted [] a.

Definition count_eq (x : Z) (a : list Z) : nat := length (filter (λ y, y = x) a).

Definition unique_counts (a : list Z) : list nat := (λ u, count_eq u a) <$> unique a.

Fixpoint index_of (x : Z) (l : list Z) : nat :=
  match l with
  | [] => 0
  | y :: l' => if decide (x = y) then 0 else S (index_of x l')
  end.

Definition unique_inverse (a : list Z) : list nat := (λ x, index_of x (unique a)) <$> a.

(** [a.cumsum(0)] *)
Fixpoint cumsum_from (acc : nat) (a : list nat) : list nat :=
  match a with
  | [] => []
  | x :: a' => (acc + x) :: cumsum_from (acc + x) a'
  end.
Definition cumsum (a : list nat) : list nat := cumsum_from 0 a.

(** [a[:-1]] *)
Definition but_last {A} (a : list A) : list A := take (length a - 1) a.

(** ** Labels, blocks and maps (equistore) *)

Record labels := Labels { names : list string; lvalues : list (list Z) }.

Record tensor_block (V : Type) := TensorBlock {
  values : tensor V;
  samples : labels;
  components : list labels;
  properties : labels
}.
Arguments TensorBlock {V} values samples components properties.
Arguments values {V} t.
Arguments samples {V} t.
Arguments components {V} t.
Arguments properties {V} t.

Record tensor_map (V : Type) := TensorMap { keys : labels; blocks : list (tensor_block V) }.
Arguments TensorMap {V} keys blocks.
Arguments keys {V} t.
Arguments blocks {V} t.

(** [lb[name]] *)
Definition column (name : string) (lb : labels) : res (list Z) :=
  match list_find (λ s, s = name) (names lb) with
  | Some (k, _) => Ok ((λ row, default 0%Z (row !! k)) <$> lvalues lb)
  | None => Err ValueError
  end.

(** [tm.block(l=l)] on a map whose keys have the single name [l] *)
Definition block_l {V} (tm : tensor_map V) (l : nat) : res (tensor_block V) :=
  match list_find (λ row, row = [Z.of_nat l]) (lvalues (keys tm)) with
  | Some (k, _) =>
      match blocks tm !! k with Some b => Ok b | None => Err ValueError end
  | None => Err ValueError
  end.

(** [np.arange(n)], [np.repeat(a, k)], [np.tile(a, k)] *)
Definition arange (n : nat) : list Z := Z.of_nat <$> seq 0 n.
Definition np_repeat {A} (a : list A) (k : nat) : list A := a ≫= replicate k.
Definition np_tile {A} (a : list A) (k : nat) : list A := mjoin (replicate k a).

(** [np.stack(cols, axis=1)] of 1-dimensional arrays of one length *)
Definition stack_columns (n : nat) (cols : list (list Z)) : res (list (list Z)) :=
  let* _ := guard_res (forallb (λ c, bool_decide (length c = n)) cols) ValueError in
  Ok (tabulate n (λ i, (λ c, default 0%Z (c !! i)) <$> cols)).

(** ** The calculator and its inputs *)

(** The seven tensors of one call of [forward]. *)
Record batch (V : Type) := Batch {
  species : list Z;
  cell_shifts : list (Z * Z * Z);
  centers : list Z;
  pairs : list (Z * Z);
  structure_centers : list Z;
  structure_pairs : list Z;
  direction_vectors : list (V * V * V)
}.
Arguments Batch {V} _ _ _ _ _ _ _.
Arguments species {V} b.
Arguments cell_shifts {V} b.
Arguments centers {V} b.
Arguments pairs {V} b.
Arguments structure_centers {V} b.
Arguments structure_pairs {V} b.
Arguments direction_vectors {V} b.

(** What [__init__] fixes: the vocabulary, [hypers["alchemical"]] when
    present, and the two providers with the [l_max] of the radial one. *)
Record calculator (V : Type) := Calculator {
  all_species : list Z;
  n_pseudo_species : option nat;
  l_max : nat;
  radial_basis_calculator : list V → labels → list (tensor V);
  spherical_harmonics_calculator : tensor V → tensor V
}.
Arguments Calculator {V} _ _ _ _ _.
Arguments all_species {V} c.
Arguments n_pseudo_species {V} c.
Arguments l_max {V} c.
Arguments radial_basis_calculator {V} c.
Arguments spherical_harmonics_calculator {V} c.

Definition is_alchemical {V} (c : calculator V) : bool :=
  match n_pseudo_species c with Some _ => true | None => false end.

(** [species_to_index]: a dict comprehension, a later entry of the
    vocabulary replaces an earlier one with the same key. *)
Definition species_to_index (vocabulary : list Z) : gmap Z nat :=
  foldl (λ m '(i, a), <[a := i]> m) ∅ (imap pair vocabulary).

Section spherical_expansions.
Context `{Scalar V}.

(** Lines 144-149 and 381-386: the offset of the structure of every pair. *)
Definition centers_offsets_per_structure (b : batch V) : list nat :=
  cumsum (0 :: but_last (unique_counts (structure_centers b))).


Definition pairs_offset (b : batch V) : res (list Z) :=
  mapM (λ k, torch_index (Z.of_nat <$> centers_offsets_per_structure b) (Z.of_nat k))
       (unique_inverse (structure_pairs b)).

Definition sample_names : list string :=
  ["structure"; "center"; "neighbor"; "species_center"; "species_neighbor";
   "cell_x"; "cell_y"; "cell_z"]%string.

Definition flatten_vectors (dv : list (V * V * V)) : list V :=
  dv ≫= λ '(x, y, z), [x; y; z].

(** [pairs + pairs_offset[:, None]] *)
Definition shifted (b : batch V) (offs : list Z) : list (Z * Z) :=
  zip_with (λ '(i, j) o, (i + o, j + o)%Z) (pairs b) offs.

(** The eight columns of the sample labels. *)
Definition label_columns (b : batch V) (sc sn : list Z) : list (list Z) :=
  [structure_pairs b; (pairs b).*1; (pairs b).*2; sc; sn;
   (λ s : Z * Z * Z, s.1.1) <$> cell_shifts b;
   (λ s : Z * Z * Z, s.1.2) <$> cell_shifts b;
   (λ s : Z * Z * Z, s.2) <$> cell_shifts b].

(** [get_cartesian_vectors].  The sum [pairs + pairs_offset[:, None]] and
    the [torch.stack] of the eight label columns need one length for all
    of them. *)
Definition get_cartesian_vectors (b : batch V) : res (tensor_block V) :=
  let* offs := pairs_offset b in
  let* _ := guard_res (bool_decide (length (pairs b) = length offs)) RuntimeError in
  let shifted_pairs_idx := shifted b offs in
  let* species_center := mapM (λ s : Z * Z, torch_index (species b) s.1) shifted_pairs_idx in
  let* species_neighbor := mapM (λ s : Z * Z, torch_index (species b) s.2) shifted_pairs_idx in
  let* rows := stack_columns (length (structure_pairs b))
                 (label_columns b species_center species_neighbor) in
  Ok (TensorBlock
        (Tensor [length (direction_vectors b); 3; 1] (flatten_vectors (direction_vectors b)))
        (Labels sample_names ((λ row : list Z, wrap32 <$> row) <$> rows))
        [Labels ["cartesian_dimension"%string] [[-1]; [0]; [1]]%Z]
        (Labels ["_"%string] [[0%Z]])).

(** [values.squeeze(dim=-1)] *)
Definition squeeze_last (t : tensor V) : tensor V :=
  match reverse (shape t) with
  | 1 :: s => Tensor (reverse s) (data t)
  | _ => t
  end.

(** [torch.sqrt((v**2).sum(dim=-1))] of a [P, 3] tensor *)
Definition norms (t : tensor V) : list V :=
  let k := dim t 1 in
  tabulate (dim t 0) (λ p,
    vsqrt (foldl (λ s j, let x := rd (data t) (p * k + j) in vadd s (vmul x x))
                 vzero (seq 0 k))).

Definition spherical_harmonics_split_list (lmax : nat) : list nat :=
  (λ l, 2 * l + 1) <$> seq 0 (lmax + 1).

(** The product [radial_basis_l[:, None, ...] * spherical_harmonics_l[:, :, None, ...]]
    with the trailing axes of the radial part read as one axis of
    [cols] entries. *)
Definition outer_product (radial sph : tensor V) (p m cols : nat) : list V :=
  tabulate (p * m * cols) (λ q,
    let ic := q `mod` cols in
    let im := (q `div` cols) `mod` m in
    let ip := q `div` (cols * m) in
    vmul (rd (data radial) (brow (dim radial 0) ip * cols + ic))
         (rd (data sph) (brow (dim sph 0) ip * m + im))).

Definition m_labels (l : nat) : labels :=
  Labels ["m"%string] ((λ k, [(Z.of_nat k - Z.of_nat l)%Z]) <$> seq 0 (2 * l + 1)).

(** One turn of the loop of [VectorExpansion.forward] (lines 329-359).
    The radial response has rank 3 in pseudo-species mode and rank 2
    otherwise, the angular one rank 2; the source reads [shape[1]] and
    [shape[2]] of the radial response, so a response of a smaller rank is
    an [IndexError] (a larger one is outside what the two providers
    return and is given the same outcome). *)
Definition vector_expansion_block (c : calculator V) (smp : labels) (l : nat)
    (radial_basis_l spherical_harmonics_l : tensor V) : res (tensor_block V) :=
  match n_pseudo_species c, shape radial_basis_l, shape spherical_harmonics_l with
  | Some n_pseudo, [p1; a; n], [p2; m] =>
      let* p := bdim p1 p2 in
      let vector_expansion_l := Tensor [p; m; a; n] (outer_product radial_basis_l spherical_harmonics_l p m (a * n)) in
      let* v := reshape vector_expansion_l [Some p; Some (2 * l + 1); None] in
      Ok (TensorBlock v smp [m_labels l]
            (Labels ["alpha_j"; "n"]%string
               (zip_with (λ x y, [x; y])
                  (np_repeat (Z.opp <$> arange n_pseudo) n)
                  (np_tile (arange n) n_pseudo))))
  | None, [p1; n], [p2; m] =>
      let* p := bdim p1 p2 in
      let vector_expansion_l := Tensor [p; m; n] (outer_product radial_basis_l spherical_harmonics_l p m n) in
      let* v := reshape vector_expansion_l [Some p; Some (2 * l + 1); None] in
      Ok (TensorBlock v smp [m_labels l]
            (Labels ["n"%string] ((λ k, [k]) <$> arange n)))
  | _, _, _ => Err IndexError
  end.

(** [VectorExpansion.forward] *)
Definition vector_expansion_forward (c : calculator V) (b : batch V) : res (tensor_map V) :=
  let* cartesian_vectors := get_cartesian_vectors b in
  let bare_cartesian_vectors := squeeze_last (values cartesian_vectors) in
  let r := norms bare_cartesian_vectors in
  let samples_metadata := samples cartesian_vectors in
  let radial_basis := radial_basis_calculator c r samples_metadata in
  let* spherical_harmonics := split_1 (spherical_harmonics_calculator c bare_cartesian_vectors)
            (spherical_harmonics_split_list (l_max c)) in
  let* vector_expansion_blocks := mapM (λ '(l, (radial_basis_l, spherical_harmonics_l)),
            vector_expansion_block c samples_metadata l radial_basis_l spherical_harmonics_l)
         (imap pair (zip radial_basis spherical_harmonics)) in
  Ok (TensorMap
        (Labels ["l"%string] ((λ k, [k]) <$> arange (length vector_expansion_blocks)))
        vector_expansion_blocks).

(** The flat center index of every pair (line 150). *)
Definition s_i_metadata_to_unique (b : batch V) : res (list Z) :=
  let* offs := pairs_offset b in
  let* _ := guard_res (bool_decide (length (pairs b) = length offs)) RuntimeError in
  Ok (zip_with (λ '(i, _) o, (i + o)%Z) (pairs b) offs).

(** The accumulation slot of every pair (lines 157 and 170-172). *)
Definition density_indices (c : calculator V) (b : batch V) (samples_metadata : labels)
    : res (list Z) :=
  let* flat := s_i_metadata_to_unique b in
  if is_alchemical c then Ok flat
  else
    let* aj_metadata := column "species_neighbor" samples_metadata in
    let* aj_shifts := mapM (λ aj, match species_to_index (all_species c) !! aj with
                            | Some i => Ok i
                            | None => Err KeyError
                            end) aj_metadata in
    let* _ := guard_res (bool_decide (length flat = length aj_shifts)) ValueError in
    Ok (zip_with (λ f s, (f * Z.of_nat (length (all_species c)) + Z.of_nat s)%Z) flat aj_shifts).

(** One turn of the reduction loops (lines 158-167 and 174-183). *)
Definition densities_l (c : calculator V) (n_centers : nat) (indices : list Z)
    (expanded_vectors : tensor_map V) (l : nat) : res (tensor V) :=
  let* blk := block_l expanded_vectors l in
  let expanded_vectors_l := values blk in
  if is_alchemical c then
    let* acc := index_add_0
            (zeros [n_centers; dim expanded_vectors_l 1; dim expanded_vectors_l 2])
            indices expanded_vectors_l in
    reshape acc [Some n_centers; Some (2 * l + 1); None]
  else
    let n_species := length (all_species c) in
    let* acc := index_add_0
            (zeros [n_centers * n_species; dim expanded_vectors_l 1; dim expanded_vectors_l 2])
            indices expanded_vectors_l in
    let* t := reshape acc [Some n_centers; Some n_species; Some (2 * l + 1); None] in
    let* t := swapaxes_1_2 t in
    reshape t [Some n_centers; Some (2 * l + 1); None].

(** [np.where(species == a_i)[0]] *)
Definition where_eq (a : list Z) (a_i : Z) : list nat :=
  (imap pair a) ≫= λ '(i, x), if decide (x = a_i) then [i] else [].

(** [-np.arange(n_pseudo_species)] or the vocabulary *)
Definition unique_species (c : calculator V) : list Z :=
  match n_pseudo_species c with
  | Some n_pseudo => Z.opp <$> arange n_pseudo
  | None => all_species c
  end.

(** [a[index]] on the rows of a numpy array *)
Definition take_rows {A} (a : list A) (index : list nat) : res (list A) :=
  mapM (λ k, match a !! k with Some x => Ok x | None => Err IndexError end) index.

(** The body of the inner loop (lines 196-219): the block of one key. *)
Definition output_block (c : calculator V) (b : batch V) (unique_s_i_indices : list (list Z))
    (dens_l : tensor V) (vectors_l_block : tensor_block V) (l : nat) (a_i : Z)
    : res (tensor_block V) :=
  let* n_col := column "n" (properties vectors_l_block) in
  let vectors_l_block_n := arange (length (unique n_col)) in
  let where_ai := where_eq (species b) a_i in
  let* densities_ai_l := index_select_0 dens_l where_ai in
  let* smp := take_rows unique_s_i_indices where_ai in
  let* prop := stack_columns (dim densities_ai_l 2)
           [np_repeat (unique_species c) (length vectors_l_block_n);
            np_tile vectors_l_block_n (length (unique_species c));
            replicate (dim densities_ai_l 2) (Z.of_nat l)] in
  Ok (TensorBlock densities_ai_l
        (Labels ["structure"; "center"]%string smp)
        (components vectors_l_block)
        (Labels ["a1"; "n1"; "l1"]%string prop)).

(** Lines 186-227: the blocks of all keys, the degree in the outer loop. *)
Definition assemble (c : calculator V) (b : batch V) (expanded_vectors : tensor_map V)
    (densities : list (tensor V)) : res (tensor_map V) :=
  let unique_s_i_indices := zip_with (λ s i, [s; i]) (structure_centers b) (centers b) in
  let* labels_blocks :=
    mapM (λ l,
            let* vectors_l_block := block_l expanded_vectors l in
            let* dens_l := match densities !! l with Some d => Ok d | None => Err IndexError end in
            mapM (λ a_i,
                    let* blk := output_block c b unique_s_i_indices dens_l vectors_l_block l a_i in
                    Ok ([a_i; Z.of_nat l; 1%Z], blk))
                 (all_species c))
         (seq 0 (l_max c + 1)) in
  let flat := mjoin labels_blocks in
  Ok (TensorMap (Labels ["a_i"; "lam"; "sigma"]%string (flat.*1)) (flat.*2)).

(** [SphericalExpansion.forward] *)
Definition forward (c : calculator V) (b : batch V) : res (tensor_map V) :=
  let* expanded_vectors := vector_expansion_forward c b in
  let* blk0 := block_l expanded_vectors 0 in
  let samples_metadata := samples blk0 in
  let* _ := guard_res (bool_decide (length (structure_centers b) = length (centers b))) RuntimeError in
  let n_centers := length (centers b) in
  let* indices := density_indices c b samples_metadata in
  let* densities := mapM (densities_l c n_centers indices expanded_vectors) (seq 0 (l_max c + 1)) in
  assemble c b expanded_vectors densities.

End spherical_expansions.

(** ** A concrete instance: integer scalars and row-wise providers

    Used to evaluate the functions on explicit batches.  The providers
    return, for every pair, a row that depends on that pair alone. *)

#[global] Instance Z_scalar : Scalar Z :=
  {| vzero := 0%Z; vadd := Z.add; vmul := Z.mul; vsqrt := Z.sqrt |}.

(** A radial provider with [n] radial channels for every degree, whose
    response of channel [k] at distance [r] is [r + k + 1]. *)
Definition radial_rows (lmax n : nat) (r : list Z) (_ : labels) : list (tensor Z) :=
  (λ _, Tensor [length r; n]
          (tabulate (length r * n) (λ q,
             (default 0 (r !! (q `div` n)%nat) + Z.of_nat (q `mod` n)%nat + 1)%Z)))
  <$> seq 0 (lmax + 1).


(** An angular provider with [(lmax+1)^2] columns: column [k] of a pair
    with vector [(x, y, z)] is [1 + k * x]. *)
Definition angular_rows (lmax : nat) (v : tensor Z) : tensor Z :=
  let k := (lmax + 1) * (lmax + 1) in
  Tensor [dim v 0; k]
    (tabulate (dim v 0 * k) (λ q,
       (1 + Z.of_nat (q `mod` k)%nat * rd (data v) (q `div` k * 3)%nat)%Z)).

Definition discrete_calculator (vocabulary : list Z) (lmax n : nat) : calculator Z :=
  Calculator vocabulary None lmax (radial_rows lmax n) (angular_rows lmax).






(** ** Batches the calculator is meant for

    A batch is the concatenation of structures: every atom has one
    identifier [(structure, center)], the per-pair arrays have one length,
    and both indices of a pair are local atom numbers of the structure the
    pair belongs to.  [VectorExpansion.forward] infers a dimension from the
    number of pairs, so at least one pair is needed. *)

Definition pair_in_range {V} (b : batch V) (sp : Z * (Z * Z)) : Prop :=
  (0 ≤ sp.2.1 < Z.of_nat (count_eq sp.1 (structure_centers b)))%Z ∧
  (0 ≤ sp.2.2 < Z.of_nat (count_eq sp.1 (structure_centers b)))%Z.

Definition valid_batch {V} (b : batch V) : Prop :=
  length (species b) = length (centers b) ∧
  length (structure_centers b) = length (centers b) ∧
  length (cell_shifts b) = length (pairs b) ∧
  length (structure_pairs b) = length (pairs b) ∧
  length (direction_vectors b) = length (pairs b) ∧
  0 < length (pairs b) ∧
  NoDup (zip (structure_centers b) (centers b)) ∧
  Forall (pair_in_range b) (zip (structure_pairs b) (pairs b)).

#[global] Instance valid_batch_dec {V} (b : batch V) : Decision (valid_batch b).
Proof. unfold valid_batch, pair_in_range. apply _. Defined.

Definition int32 (z : Z) : Prop := (- 2 ^ 31 ≤ z < 2 ^ 31)%Z.

(** The species codes of the vocabulary are distinct [np.int32] values. *)
Definition valid_vocabulary {V} (c : calculator V) : Prop :=
  Forall int32 (all_species c) ∧ NoDup (all_species c).

#[global] Instance valid_vocabulary_dec {V} (c : calculator V) : Decision (valid_vocabulary c).
Proof. unfold valid_vocabulary, int32. apply _. Defined.

Section provider_results.
Context `{Scalar V}.

(** What the two providers return on a batch. *)
Definition bare_cartesian_vectors (b : batch V) : tensor V :=
  Tensor [length (direction_vectors b); 3] (flatten_vectors (direction_vectors b)).

Definition sample_labels (b : batch V) : labels :=
  match get_cartesian_vectors b with
  | Ok cv => samples cv
  | Err _ => Labels sample_names []
  end.

Definition radial_basis_of (c : calculator V) (b : batch V) : list (tensor V) :=
  radial_basis_calculator c (norms (bare_cartesian_vectors b)) (sample_labels b).

Definition spherical_harmonics_of (c : calculator V) (b : batch V) : tensor V :=
  spherical_harmonics_calculator c (bare_cartesian_vectors b).

(** The number of radial channels of degree [l]: the last dimension of
    the radial response. *)
Definition n_radial (c : calculator V) (b : batch V) (l : nat) : nat :=
  match radial_basis_of c b !! l with
  | Some t => default 0 (last (shape t))
  | None => 0
  end.

(** The provider contracts of the source: one radial response per degree,
    of shape [[n_pairs, n_radial(l)]] or [[n_pairs, n_pseudo, n_radial(l)]],
    and an angular response of shape [[n_pairs, (l_max+1)^2]]. *)
Definition radial_shape (c : calculator V) (b : batch V) (l : nat) : list nat :=
  match n_pseudo_species c with
  | Some a => [length (pairs b); a; n_radial c b l]
  | None => [length (pairs b); n_radial c b l]
  end.

Definition provider_contract (c : calculator V) (b : batch V) : Prop :=
  length (radial_basis_of c b) = l_max c + 1 ∧
  Forall (λ lt : nat * tensor V, shape lt.2 = radial_shape c b lt.1)
         (imap pair (radial_basis_of c b)) ∧
  shape (spherical_harmonics_of c b) = [length (pairs b); (l_max c + 1) * (l_max c + 1)].

#[global] Instance provider_contract_dec (c : calculator V) (b : batch V) :
  Decision (provider_contract c b).
Proof. unfold provider_contract. apply _. Defined.



(** Element [[i, j]] of a 2-dimensional tensor. *)
Definition get2 (t : tensor V) (i j : nat) : V :=
  rd (data t) (i * dim t 1 + j).


(** The keys of the output: the loop over the degree is the outer one. *)
Definition expected_keys (c : calculator V) : list (list Z) :=
  seq 0 (l_max c + 1) ≫= λ l, (λ a_i, [a_i; Z.of_nat l; 1%Z]) <$> all_species c.


(** The identifier of the atom at position [k] of the batch. *)
Definition atom_label (b : batch V) (k : nat) : option (list Z) :=
  match structure_centers b !! k, centers b !! k with
  | Some s, Some i => Some [s; i]
  | _, _ => None
  end.


End provider_results.

Section statement_vocabulary.
Context `{Scalar V}.

(** The neighbor species that the sample labels record for every pair. *)
Definition neighbor_species_labels (b : batch V) : list Z :=
  match column "species_neighbor" (sample_labels b) with
  | Ok aj => aj
  | Err _ => []
  end.

(** The flat center index of every pair. *)
Definition flat_center_indices (b : batch V) : list Z :=
  match s_i_metadata_to_unique b with
  | Ok flat => flat
  | Err _ => []
  end.

(** The number of columns of the degree-[l] block of the vector expansion. *)
Definition ve_columns (c : calculator V) (b : batch V) (l : nat) : nat :=
  match n_pseudo_species c with
  | Some a => a * n_radial c b l
  | None => n_radial c b l
  end.

(** Entry [col] of row [p] of the degree-[l] radial response, its trailing
    axes read as one axis of [ve_columns] entries. *)
Definition radial_entry (c : calculator V) (b : batch V) (l p col : nat) : V :=
  match radial_basis_of c b !! l with
  | Some t => rd (data t) (p * ve_columns c b l + col)
  | None => vzero
  end.

(** Entry [m] of row [p] of the degree-[l] chunk of the angular response. *)
Definition angular_entry (c : calculator V) (b : batch V) (l p m : nat) : V :=
  get2 (spherical_harmonics_of c b) p (l * l + m).








(** In species mode every neighbor species that the labels record is in
    the vocabulary. *)
Definition known_neighbors (c : calculator V) (b : batch V) : Prop :=
  n_pseudo_species c = None →
  Forall (λ a, a ∈ all_species c) (neighbor_species_labels b).

#[global] Instance known_neighbors_dec (c : calculator V) (b : batch V) :
  Decision (known_neighbors c b).
Proof. unfold known_neighbors. apply _. Defined.




End statement_vocabulary.

(** ** Batches on which the flat index is the position of the center

    The structures are concatenated in increasing order of their index,
    the atoms of a structure are numbered [0, 1, ...] in the order of the
    batch, and every structure owns at least one pair. *)

Definition local_numbering {V} (b : batch V) : Prop :=
  centers b =
  imap (λ k s, Z.of_nat (k - length (filter (λ y, (y < s)%Z) (structure_centers b))))
       (structure_centers b).

Definition well_numbered {V} (b : batch V) : Prop :=
  StronglySorted Z.le (structure_centers b) ∧
  local_numbering b ∧
  Forall (λ s, s ∈ structure_pairs b) (structure_centers b).

#[global] Instance well_numbered_dec {V} (b : batch V) : Decision (well_numbered b).
Proof. unfold well_numbered, local_numbering. apply _. Defined.

(** ** Reordering the pair list *)

(** The list [l] in the order [σ]: entry [p] of the result is entry
    [σ[p]] of [l]. *)
Definition reorder {A} (σ : list nat) (l : list A) : list A :=
  omap (λ i, l !! i) σ.

(** The batch [b] with its pair list (the four per-pair tensors) in the
    order [σ]. *)
Definition reorder_pairs {V} (σ : list nat) (b : batch V) : batch V :=
  Batch (species b) (reorder σ (cell_shifts b)) (centers b) (reorder σ (pairs b))
        (structure_centers b) (reorder σ (structure_pairs b))
        (reorder σ (direction_vectors b)).

Section pair_order.
Context `{Scalar V}.

(** The providers answer row by row: on the reordered batch, the
    responses of row [p] are those of row [σ[p]] of [b]. *)
Definition rowwise_at (c : calculator V) (b : batch V) (σ : list nat) (l p : nat) : Prop :=
  match σ !! p with
  | Some q =>
      Forall (λ col, radial_entry c (reorder_pairs σ b) l p col = radial_entry c b l q col)
             (seq 0 (ve_columns c b l)) ∧
      Forall (λ m, angular_entry c (reorder_pairs σ b) l p m = angular_entry c b l q m)
             (seq 0 (2 * l + 1))
  | None => False
  end.

Definition rowwise_on (c : calculator V) (b : batch V) (σ : list nat) : Prop :=
  Forall (λ l, n_radial c (reorder_pairs σ b) l = n_radial c b l ∧
               Forall (rowwise_at c b σ l) (seq 0 (length (pairs b))))
         (seq 0 (l_max c + 1)).

#[global] Instance rowwise_on_dec `{!EqDecision V} (c : calculator V) (b : batch V)
    (σ : list nat) : Decision (rowwise_on c b σ).
Proof.
  unfold rowwise_on, rowwise_at.
  apply Forall_dec. intros l. apply and_dec; [apply _|].
  apply Forall_dec. intros p. destruct (σ !! p); apply _.
Defined.



End pair_order.


(** ** Reading one row of the output *)

Section rows_of_output.
Context `{Scalar V}.

(** The entries of the row labelled [lab] in the block of key [key]:
    the [(2l+1) * columns] entries of that atom, component by component. *)
Definition coefficient_row (tm : tensor_map V) (key lab : list Z) : option (list V) :=
  '(i, _) ← list_find (λ k, k = key) (lvalues (keys tm));
  blk ← blocks tm !! i;
  '(j, _) ← list_find (λ r, r = lab) (lvalues (samples blk));
  let stride := row_stride (shape (values blk)) in
  Some (take stride (drop (j * stride) (data (values blk)))).

Definition forward_row (c : calculator V) (b : batch V) (key lab : list Z)
    : option (list V) :=
  match forward c b with
  | Ok tm => coefficient_row tm key lab
  | Err _ => None
  end.

End rows_of_output.

(** A batch of two structures of which the first, a single atom, has no
    pair: structure 0 is one atom of species 1, structure 1 is a pair of
    atoms of species 8 and 1 that are neighbors of each other. *)
Definition zero_pair_first_batch : batch Z :=
  Batch [1; 8; 1]%Z
        [(0, 0, 0); (0, 0, 0)]%Z
        [0; 0; 1]%Z
        [(0, 1); (1, 0)]%Z
        [0; 1; 1]%Z
        [1; 1]%Z
        [(1, 0, 0); (-1, 0, 0)]%Z.

(** Its second structure alone. *)
Definition second_structure_alone : batch Z :=
  Batch [8; 1]%Z
        [(0, 0, 0); (0, 0, 0)]%Z
        [0; 1]%Z
        [(0, 1); (1, 0)]%Z
        [1; 1]%Z
        [1; 1]%Z
        [(1, 0, 0); (-1, 0, 0)]%Z.

(** Its first structure alone: one atom, no pair. *)
Definition isolated_atom_alone : batch Z :=
  Batch [1]%Z [] [0]%Z [] [0]%Z [] [].

Definition small_calculator : calculator Z := discrete_calculator [1; 8]%Z 0 1.

(** ** The call on a store

    The tensors of a call live in a store; the seven arguments are
    locations of it.  Everything [forward] computes from them it computes
    by reading; what it allocates is appended to the store; the one
    operation that writes in place is [index_add_], and its target is the
    tensor that [torch.zeros] has just allocated. *)

Module Store.

Inductive cell (V : Type) : Type :=
| Ints (a : list Z)
| IntPairs (a : list (Z * Z))
| IntTriples (a : list (Z * Z * Z))
| Vectors (a : list (V * V * V))
| Floats (t : tensor V).
Arguments Ints {V} a.
Arguments IntPairs {V} a.
Arguments IntTriples {V} a.
Arguments Vectors {V} a.
Arguments Floats {V} t.

Abbreviation store V := (list (cell V)).

(** A computation on the store: its result or exception, and the store
    it leaves. *)
Definition st (V A : Type) : Type := store V → res A * store V.

Definition st_bind {V A B} (m : st V A) (f : A → st V B) : st V B :=
  λ σ, match m σ with
       | (Ok a, σ') => f a σ'
       | (Err e, σ') => (Err e, σ')
       end.

Notation "'let!' x := m 'in' k" := (st_bind m (λ x, k))
  (at level 10, x name, m at level 100, k at level 200, only parsing).

(** A computation that only reads values it already holds. *)
Definition lift {V A} (r : res A) : st V A := λ σ, (r, σ).

(** A new tensor: it gets the next free location. *)
Definition alloc {V} (v : cell V) : st V nat := λ σ, (Ok (length σ), σ ++ [v]).

Definition load_floats {V} (loc : nat) : st V (tensor V) :=
  λ σ, match σ !! loc with
       | Some (Floats t) => (Ok t, σ)
       | _ => (Err RuntimeError, σ)
       end.

Fixpoint mapM_st {V A B} (f : A → st V B) (l : list A) : st V (list B) :=
  match l with
  | [] => lift (Ok [])
  | x :: l' => let! y := f x in let! ys := mapM_st f l' in lift (Ok (y :: ys))
  end.

(** The locations of the seven arguments. *)
Record batch_refs := BatchRefs {
  species_ref : nat;
  cell_shifts_ref : nat;
  centers_ref : nat;
  pairs_ref : nat;
  structure_centers_ref : nat;
  structure_pairs_ref : nat;
  direction_vectors_ref : nat
}.

(** The batch that the arguments denote in a store. *)
Definition load_batch {V} (σ : store V) (r : batch_refs) : res (batch V) :=
  match σ !! species_ref r, σ !! cell_shifts_ref r, σ !! centers_ref r,
        σ !! pairs_ref r, σ !! structure_centers_ref r,
        σ !! structure_pairs_ref r, σ !! direction_vectors_ref r with
  | Some (Ints sp), Some (IntTriples cs), Some (Ints ce), Some (IntPairs pa),
    Some (Ints sc), Some (Ints spa), Some (Vectors dv) =>
      Ok (Batch sp cs ce pa sc spa dv)
  | _, _, _, _, _, _, _ => Err RuntimeError
  end.

Definition read_batch {V} (r : batch_refs) : st V (batch V) :=
  λ σ, (load_batch σ r, σ).

Section forward_on_store.
Context `{Scalar V}.

(** [self.index_add_(0, index, source)] on the tensor at [loc]. *)
Definition index_add_inplace (loc : nat) (index : list Z) (source : tensor V)
    : st V unit :=
  λ σ, match σ !! loc with
       | Some (Floats self) =>
           match index_add_0 self index source with
           | Ok t => (Ok (), <[loc := Floats t]> σ)
           | Err e => (Err e, σ)
           end
       | _ => (Err RuntimeError, σ)
       end.

(** [densities_l = torch.zeros(shape); densities_l.index_add_(...)] *)
Definition accumulate (s : list nat) (index : list Z) (source : tensor V)
    : st V (tensor V) :=
  let! loc := alloc (Floats (zeros s)) in
  let! _ := index_add_inplace loc index source in
  load_floats loc.

(** One turn of the reduction loops (lines 158-167 and 174-183). *)
Definition densities_l_st (c : calculator V) (n_centers : nat) (indices : list Z)
    (expanded_vectors : tensor_map V) (l : nat) : st V (tensor V) :=
  let! blk := lift (block_l expanded_vectors l) in
  let expanded_vectors_l := values blk in
  if is_alchemical c then
    let! acc := accumulate [n_centers; dim expanded_vectors_l 1; dim expanded_vectors_l 2]
                  indices expanded_vectors_l in
    lift (reshape acc [Some n_centers; Some (2 * l + 1); None])
  else
    let n_species := length (all_species c) in
    let! acc := accumulate [n_centers * n_species; dim expanded_vectors_l 1;
                            dim expanded_vectors_l 2]
                  indices expanded_vectors_l in
    lift (let* t := reshape acc [Some n_centers; Some n_species; Some (2 * l + 1); None] in
          let* t := swapaxes_1_2 t in
          reshape t [Some n_centers; Some (2 * l + 1); None]).

(** [SphericalExpansion.forward] on the store: the arguments are read
    (line 131), the two metadata tensors are cloned (lines 136-137), and
    each degree gets a new accumulator. *)
Definition forward_st (c : calculator V) (r : batch_refs) : st V (tensor_map V) :=
  let! b := read_batch r in
  let! expanded_vectors := lift (vector_expansion_forward c b) in
  let! blk0 := lift (block_l expanded_vectors 0) in
  let! _ := alloc (Ints (structure_centers b)) in
  let! _ := alloc (Ints (centers b)) in
  let! _ := lift (guard_res (bool_decide (length (structure_centers b) = length (centers b)))
                            RuntimeError) in
  let! indices := lift (density_indices c b (samples blk0)) in
  let! densities :=
    mapM_st (densities_l_st c (length (centers b)) indices expanded_vectors)
            (seq 0 (l_max c + 1)) in
  lift (assemble c b expanded_vectors densities).

(** The store [σ'] keeps every tensor of [σ] as it is. *)
Definition keeps (σ σ' : store V) : Prop :=
  length σ ≤ length σ' ∧ ∀ loc, loc < length σ → σ' !! loc = σ !! loc.

(** A computation that leaves every tensor it finds as it is, and whose
    result is the one of [r]. *)
Definition reads_only {A} (m : st V A) (r : res A) : Prop :=
  ∀ σ, (m σ).1 = r ∧ keeps σ (m σ).2.

End forward_on_store.

End Store.

(** * Properties *)

(** ** The error monad *)


Lemma bind_Err {A B} (m : res A) (f : A → res B) (e : error) :
  m = Err e → bind m f = Err e.
Proof. by intros ->. Qed.







Lemma mapM_Err {A B} (f : A → res B) (l : list A) (x : A) :
  x ∈ l → (∃ e, f x = Err e) → ∃ e, mapM f l = Err e.
Proof.
  intros Hx [e He]. induction l as [|y l IH]; [by apply elem_of_nil in Hx|].
  apply elem_of_cons in Hx as [<-|Hx]; simpl.
  - rewrite He. by exists e.
  - destruct (f y) as [b|e']; simpl; [|by exists e'].
    destruct (IH Hx) as [e' ->]. by exists e'.
Qed.

(** ** Tabulated buffers *)






Lemma numel_cons (n : nat) (s : list nat) : numel (n :: s) = n * numel s.
Proof. done. Qed.

(** ** [torch.unique] *)












(** ** Counts and offsets *)










Lemma cumsum_from_length (acc : nat) (a : list nat) :
  length (cumsum_from acc a) = length a.
Proof. revert acc. induction a as [|x a IH]; intros acc; simpl; [done|]. by rewrite IH. Qed.








Section offsets.
Context `{Scalar V}.



End offsets.

(** ** [get_cartesian_vectors] *)





Section cartesian.
Context `{Scalar V}.









End cartesian.

#[local] Arguments Nat.mul : simpl never.
#[local] Arguments Nat.add : simpl never.

(** ** Shapes and positions *)







Section vector_expansion.
Context `{Scalar V}.












End vector_expansion.

(** ** [VectorExpansion.forward] *)





Section vector_expansion.
Context `{Scalar V}.

Lemma n_radial_last (c : calculator V) (b : batch V) (l : nat) (R : tensor V) :
  radial_basis_of c b !! l = Some R → n_radial c b l = default 0 (last (shape R)).
Proof. intros HR. unfold n_radial. by rewrite HR. Qed.





End vector_expansion.

(** ** [index_add_]: the reduction *)


Section reduction.
Context `{Scalar V}.






End reduction.

(** ** The species dictionary *)






Section indices.
Context `{Scalar V}.




End indices.

(** ** The reduction loops *)



Section densities.
Context `{Scalar V}.




End densities.

(** ** The split by center species *)








Section output.
Context `{Scalar V}.





End output.

(** ** [SphericalExpansion.forward] *)

Lemma mjoin_length_uniform {A} (ls : list (list A)) (w : nat) :
  Forall (λ xs, length xs = w) ls → length (mjoin ls) = length ls * w.
Proof.
  induction 1 as [|xs ls Hxs _ IH]; [done|]. change (mjoin (xs :: ls)) with (xs ++ mjoin ls).
  rewrite length_app, IH, Hxs. cbn [length]. lia.
Qed.



Section forward.
Context `{Scalar V}.


End forward.

(** ** Keys, rows and shapes of the output *)



Section output_keys.
Context `{Scalar V}.


Lemma expected_keys_mjoin (c : calculator V) :
  expected_keys c =
  mjoin ((λ l, (λ a_i, [a_i; Z.of_nat l; 1%Z]) <$> all_species c) <$> seq 0 (l_max c + 1)).
Proof. unfold expected_keys. by rewrite list_join_bind, list_fmap_bind. Qed.

Lemma expected_keys_uniform (c : calculator V) :
  Forall (λ xs : list (list Z), length xs = length (all_species c))
    ((λ l, (λ a_i, [a_i; Z.of_nat l; 1%Z]) <$> all_species c) <$> seq 0 (l_max c + 1)).
Proof. apply Forall_fmap, Forall_forall. intros l _. simpl. by rewrite length_fmap. Qed.

Lemma expected_keys_length (c : calculator V) :
  length (expected_keys c) = (l_max c + 1) * length (all_species c).
Proof.
  rewrite expected_keys_mjoin, (mjoin_length_uniform _ _ (expected_keys_uniform c)).
  by rewrite length_fmap, length_seq.
Qed.






End output_keys.

Section output_claims.
Context `{Scalar V}.




End output_claims.




(** ** The rows of the vector expansion *)


Section rows.
Context `{Scalar V}.



(** ** The neighbor-species lookup *)






End rows.




(** ** Slots, columns and sums *)

Section sums.
Context `{Scalar V}.




End sums.

Section species_mode.
Context `{Scalar V}.


End species_mode.


(** ** Reordering the pair list *)








Section reordered.
Context `{Scalar V}.













End reordered.

(** ** The flat index of a pair and the atom it names *)

Lemma filter_all {A} (P : A → Prop) `{!∀ x, Decision (P x)} (l : list A) :
  Forall P l → filter P l = l.
Proof.
  induction 1 as [|x l Hx _ IH]; [done|]. by rewrite filter_cons_True, IH.
Qed.







Section owner.
Context `{Scalar V}.




End owner.

(** ** The reduction does not depend on the order of the pairs *)



Section order.
Context `{Scalar V}.






End order.


(** ** A structure without pairs in front of another structure *)

(** C1 (the code at the failing input).  In the batch whose first
    structure has no pair, the pairs of the second structure get the flat
    center indices 0 and 1 instead of 1 and 2, and the second atom of the
    second structure gets an all-zero row, while [forward] on the second
    structure alone gives that atom the row [[0; 2]]. *)
Theorem batch_with_leading_zero_pair_structure :
  flat_center_indices zero_pair_first_batch = [0; 1]%Z ∧
  forward_row small_calculator zero_pair_first_batch [1; 0; 1]%Z [1; 1]%Z
    = Some [0; 0]%Z ∧
  forward_row small_calculator second_structure_alone [1; 0; 1]%Z [1; 1]%Z
    = Some [0; 2]%Z.
Proof. by vm_compute. Qed.

(** C6 (the code at the failing input).  In the batch whose first
    structure is a single atom without pairs, no pair belongs to that
    structure, yet the atom gets the row [[0; 2]]: the terms of the first
    pair of the second structure.  And on that single atom alone
    [forward] raises. *)
Theorem isolated_atom_receives_terms :
  (0%Z ∉ structure_pairs zero_pair_first_batch) ∧
  atom_label zero_pair_first_batch 0 = Some [0; 0]%Z ∧
  forward_row small_calculator zero_pair_first_batch [1; 0; 1]%Z [0; 0]%Z
    = Some [0; 2]%Z ∧
  forward small_calculator isolated_atom_alone = Err RuntimeError.
Proof.
  split; [|by vm_compute].
  apply (bool_decide_unpack _). by vm_compute.
Qed.

(** ** The arguments are left as they are *)

Module StoreFacts.
Import Store.

Section frame.
Context `{Scalar V}.

Lemma keeps_refl (σ : store V) : keeps σ σ.
Proof. by split. Qed.

Lemma keeps_trans (σ1 σ2 σ3 : store V) : keeps σ1 σ2 → keeps σ2 σ3 → keeps σ1 σ3.
Proof.
  intros [Hl12 H12] [Hl23 H23]. split; [lia|]. intros loc Hloc.
  rewrite H23 by lia. by apply H12.
Qed.

Lemma keeps_alloc (σ : store V) (v : cell V) : keeps σ (σ ++ [v]).
Proof.
  split; [rewrite length_app; simpl; lia|]. intros loc Hloc. by apply lookup_app_l.
Qed.

Lemma reads_only_lift {A} (r : res A) : reads_only (lift (V := V) r) r.
Proof. intros σ. split; [done|apply keeps_refl]. Qed.

Lemma reads_only_bind {A B} (m : st V A) (f : A → st V B) (r : res A) (g : A → res B) :
  reads_only m r → (∀ a, reads_only (f a) (g a)) →
  reads_only (st_bind m f) (bind r g).
Proof.
  intros Hm Hf σ. unfold st_bind. destruct (Hm σ) as [Hr Hk].
  destruct (m σ) as [[a|e] σ'] eqn:E; simpl in *; subst r; simpl.
  - destruct (Hf a σ') as [Hr' Hk']. split; [done|]. by eapply keeps_trans.
  - done.
Qed.

Lemma reads_only_after_alloc {A} (v : cell V) (k : st V A) (r : res A) :
  reads_only k r → reads_only (st_bind (alloc v) (λ _, k)) r.
Proof.
  intros Hk σ. unfold st_bind, alloc. destruct (Hk (σ ++ [v])) as [Hr Hk'].
  split; [done|]. eapply keeps_trans; [apply keeps_alloc|done].
Qed.

(** The accumulator is a new tensor: filling it changes no other one. *)
Lemma reads_only_accumulate (s : list nat) (index : list Z) (source : tensor V) :
  reads_only (accumulate s index source) (index_add_0 (zeros s) index source).
Proof.
  intros σ. unfold accumulate, st_bind, alloc, index_add_inplace, load_floats.
  cbv beta iota. rewrite list_lookup_middle by done.
  destruct (index_add_0 (zeros s) index source) as [t|e]; cbv beta iota.
  - rewrite list_lookup_insert_eq by (rewrite length_app; simpl; lia).
    cbn [fst snd]. split; [done|]. split.
    + rewrite length_insert, length_app. simpl. lia.
    + intros loc Hloc. rewrite list_lookup_insert_ne by lia. by apply lookup_app_l.
  - split; [done|apply keeps_alloc].
Qed.

Lemma reads_only_mapM {A B} (f : A → st V B) (g : A → res B) (l : list A) :
  (∀ x, reads_only (f x) (g x)) → reads_only (mapM_st f l) (mapM g l).
Proof.
  intros Hf. induction l as [|x l IH]; simpl.
  - apply reads_only_lift.
  - apply reads_only_bind; [done|]. intros y.
    apply reads_only_bind; [done|]. intros ys. apply reads_only_lift.
Qed.

Lemma reads_only_densities_l (c : calculator V) (n_centers : nat) (indices : list Z)
    (ev : tensor_map V) (l : nat) :
  reads_only (densities_l_st c n_centers indices ev l)
             (densities_l c n_centers indices ev l).
Proof.
  unfold densities_l_st, densities_l.
  apply reads_only_bind; [apply reads_only_lift|]. intros blk.
  destruct (is_alchemical c).
  - apply reads_only_bind; [apply reads_only_accumulate|]. intros acc.
    apply reads_only_lift.
  - apply reads_only_bind; [apply reads_only_accumulate|]. intros acc.
    apply reads_only_lift.
Qed.

Lemma load_batch_keeps (σ σ' : store V) (r : batch_refs) (b : batch V) :
  keeps σ σ' → load_batch σ r = Ok b → load_batch σ' r = Ok b.
Proof.
  intros [_ Hk] Hb. unfold load_batch in *.
  repeat match type of Hb with
  | match ?x with _ => _ end = Ok _ =>
      let E := fresh "E" in destruct x eqn:E; try discriminate Hb
  end.
  repeat match goal with
  | E : σ !! ?i = Some _ |- _ =>
      rewrite <- (Hk i (lookup_lt_Some _ _ _ E)) in E; rewrite E; clear E
  end.
  done.
Qed.

Lemma st_bind_read_batch {A} (r : batch_refs) (k : batch V → st V A) (σ : store V) :
  st_bind (read_batch r) k σ =
  match load_batch σ r with
  | Ok b => k b σ
  | Err e => (Err e, σ)
  end.
Proof. unfold st_bind, read_batch. by destruct (load_batch σ r). Qed.

(** C10.  A call of [forward] on a store leaves every tensor that was in
    the store before the call as it was, in particular its seven
    arguments, whether the call returns or raises: the accumulators that
    [index_add_] fills are new tensors, and the two metadata tensors are
    copied.  What the call returns is what [forward] computes from the
    values of the arguments. *)
Theorem forward_keeps_arguments (c : calculator V) (r : batch_refs) (σ : store V) :
  keeps σ (forward_st c r σ).2 ∧
  (is_Ok (load_batch σ r) → load_batch (forward_st c r σ).2 r = load_batch σ r) ∧
  (forward_st c r σ).1 = (let* b := load_batch σ r in forward c b).
Proof.
  assert (Hrest : ∀ b,
    reads_only
      (st_bind (lift (vector_expansion_forward c b)) (λ expanded_vectors,
       st_bind (lift (block_l expanded_vectors 0)) (λ blk0,
       st_bind (alloc (Ints (structure_centers b))) (λ _,
       st_bind (alloc (Ints (centers b))) (λ _,
       st_bind (lift (guard_res (bool_decide (length (structure_centers b)
                                              = length (centers b))) RuntimeError)) (λ _,
       st_bind (lift (density_indices c b (samples blk0))) (λ indices,
       st_bind (mapM_st (densities_l_st c (length (centers b)) indices expanded_vectors)
                        (seq 0 (l_max c + 1))) (λ densities,
       lift (assemble c b expanded_vectors densities)))))))))
      (forward c b)).
  { intros b. unfold forward.
    apply reads_only_bind; [apply reads_only_lift|]. intros ev.
    apply reads_only_bind; [apply reads_only_lift|]. intros blk0.
    apply reads_only_after_alloc, reads_only_after_alloc.
    apply reads_only_bind; [apply reads_only_lift|]. intros u.
    apply reads_only_bind; [apply reads_only_lift|]. intros indices.
    apply reads_only_bind; [|intros densities; apply reads_only_lift].
    apply reads_only_mapM. intros l. apply reads_only_densities_l. }
  unfold forward_st. rewrite st_bind_read_batch.
  destruct (load_batch σ r) as [b|e] eqn:Hb; cbn [bind].
  - destruct (Hrest b σ) as [Hres Hkeep]. split; [exact Hkeep|]. split; [|exact Hres].
    intros _. by apply (load_batch_keeps σ).
  - split; [apply keeps_refl|]. split; [|done]. by intros [? [=]].
Qed.

End frame.
End StoreFacts.
